(** * A leveled logging facility: the dispatch pipeline of [logger.go]

    Shallow embedding of package [logging] (file [logger.go]): the severity
    scale with its colour and name tables, the [Logger] structure, the
    default configuration and the dispatch method [Logger.log] with its five
    public entry points.

    Collaborators that [logger.go] calls but does not define (the record
    builder, the filter function values, the template engine, the
    destinations) are the fields of two type classes, so that every
    statement about [log] holds for all of them. *)

From Stdlib Require Import ZArith String Ascii List Bool Lia DecimalString.
From Stdlib Require DecimalPos DecimalZ.
From stdpp Require Import base option list gmap strings.

Local Open Scope Z_scope.
Local Open Scope string_scope.

(** ** Severity scale *)

(** [type MessageLevel int]: levels are compared and never computed with, so
    the width of [int] plays no part. *)
Abbreviation MessageLevel := Z.

(** The colour block: [_ = iota + 30] repeated implicitly on every line, so
    the line with index [iota] holds [iota + 30]. *)
Definition color_const (iota : Z) : Z := iota + 30.

Definition ColorRed     : Z := color_const 1.
Definition ColorGreen   : Z := color_const 2.
Definition ColorYellow  : Z := color_const 3.
Definition ColorBlue    : Z := color_const 4.
Definition ColorMagenta : Z := color_const 5.

(** The level block: [NOTSET = iota] on line 0, then
    [MessageLevel(10 * iota)] written out on lines 1 to 5. *)
Definition level_const (iota : Z) : MessageLevel := 10 * iota.

Definition NOTSET   : Z := 0.
Definition DEBUG    : MessageLevel := level_const 1.
Definition INFO     : MessageLevel := level_const 2.
Definition WARNING  : MessageLevel := level_const 3.
Definition ERROR    : MessageLevel := level_const 4.
Definition CRITICAL : MessageLevel := level_const 5.

(** Go's [>=] on [MessageLevel], the comparison of the three level gates. *)
Definition level_ge (a b : MessageLevel) : bool := (b <=? a)%Z.

(** The byte [\033]. *)
Definition ESC : string := String (ascii_of_nat 27) EmptyString.

(** The verb [%d] of [fmt.Sprintf] on an integer. *)
Definition sprintf_d (n : Z) : string := NilZero.string_of_int (Z.to_int n).

(** [const LevelColorSeqClear = "\033[0m"] *)
Definition LevelColorSeqClear : string := ESC +:+ "[0m".

(** [fmt.Sprintf("\033[%d;%dm", way, MessageLevel(l))] *)
Definition levelColorSeq (l : MessageLevel) (way : Z) : string :=
  ESC +:+ "[" +:+ sprintf_d way +:+ ";" +:+ sprintf_d l +:+ "m".

(** A keyed slice literal [[]string{k1: v1, ..., kn: vn}]: its length is the
    largest key plus one and the positions no key names hold the zero value
    of the element type, the empty string. *)
Definition slice_literal (kvs : list (Z * string)) : list string :=
  let len := S (Z.to_nat (foldr Z.max 0 (kvs.*1))) in
  foldl (fun s kv => <[Z.to_nat kv.1 := kv.2]> s) (replicate len "") kvs.

(** The index expression [s[i]] on a slice.  [None] stands for the run-time
    panic "index out of range", raised for a negative index and for an index
    at or past the length. *)
Definition slice_index (s : list string) (i : Z) : option string :=
  if decide (0 ≤ i)%Z then s !! Z.to_nat i else None.

(** [var LevelColorFlag = []string{DEBUG: ..., ..., CRITICAL: ...}] *)
Definition LevelColorFlag : list string :=
  slice_literal
    [ (DEBUG,    levelColorSeq ColorBlue 0);
      (INFO,     levelColorSeq ColorGreen 0);
      (WARNING,  levelColorSeq ColorYellow 0);
      (ERROR,    levelColorSeq ColorRed 1);
      (CRITICAL, levelColorSeq ColorMagenta 1) ].

(** The index expression [m[k]] on a map with string values: a key that is
    not in the map gives the zero value. *)
Definition map_index (m : gmap Z string) (k : Z) : string :=
  default "" (m !! k).

(** [var LevelString = map[MessageLevel]string{...}] *)
Definition LevelString : gmap Z string :=
  list_to_map
    [ (DEBUG,    "DEBUG");
      (INFO,     "INFO");
      (WARNING,  "WARNING");
      (ERROR,    "ERROR");
      (CRITICAL, "CRITICAL") ].

(** What the colour table holds at an index it has: the sequence of the
    level for the five levels, the zero value elsewhere. *)
Definition colour_at (l : MessageLevel) : string :=
  if decide (l = DEBUG) then levelColorSeq ColorBlue 0
  else if decide (l = INFO) then levelColorSeq ColorGreen 0
  else if decide (l = WARNING) then levelColorSeq ColorYellow 0
  else if decide (l = ERROR) then levelColorSeq ColorRed 1
  else if decide (l = CRITICAL) then levelColorSeq ColorMagenta 1
  else "".

(** What the name table gives for a rank. *)
Definition name_at (l : MessageLevel) : string :=
  if decide (l = DEBUG) then "DEBUG"
  else if decide (l = INFO) then "INFO"
  else if decide (l = WARNING) then "WARNING"
  else if decide (l = ERROR) then "ERROR"
  else if decide (l = CRITICAL) then "CRITICAL"
  else "".

(** ** Data model *)

(** Go's [error] interface value; [None] is [nil]. *)
Definition go_error : Type := string.

(** [logger.go] names these types and never declares them: the function
    values a [Filter] field holds, the record [GetMessageRecord] builds, the
    [interface{}] arguments of a log call, the [io.Writer] a handler owns, and
    the world outside the process (clock, call stack, open files). *)
Class Externals := {
  MessageFilter : Type;
  MessageRecord : Type;
  Value : Type;
  Writer : Type;
  World : Type;
  os_Stdout : Writer;
}.

(** [&MessageFormatter{Format: ..., TimeFormat: ...}] *)
Record MessageFormatter := {
  Format : string;
  TimeFormat : string;
}.

(** The fields of [StreamMessageHandler] that [logger.go] reads or sets.
    A pointer field is an [option]: [None] is [nil]. *)
Module StreamMessageHandler.
Record t `{Externals} := mk {
  Level : MessageLevel;
  Formatter : option MessageFormatter;
  Destination : Writer;
  Filter : option MessageFilter;
}.
End StreamMessageHandler.

(** The fields of [FileMessageHandler] that [log] reads, and the destination
    that its [Write] needs. *)
Module FileMessageHandler.
Record t `{Externals} := mk {
  Level : MessageLevel;
  Formatter : option MessageFormatter;
  Destination : Writer;
  Filter : option MessageFilter;
}.
End FileMessageHandler.

(** [type Logger struct]; the field [Record] is [Record_] here, the word
    being reserved. *)
Module Logger.
Record t `{Externals} := mk {
  Level : MessageLevel;
  Filter : option MessageFilter;
  Record_ : option MessageRecord;
  StreamHandler : option StreamMessageHandler.t;
  FileHandler : option FileMessageHandler.t;
}.

(** The assignment [l.Record = r]. *)
Definition set_Record `{Externals} (r : option MessageRecord) (l : t) : t :=
  mk _ (Level l) (Filter l) r (StreamHandler l) (FileHandler l).
End Logger.

(** Modelled from the spec: the functions [log] calls and [logger.go] does
    not define.  A filter is a predicate without side effects on the logger
    it is given; the record builder reads the clock and the call stack and
    has no other effect; the template engine renders a formatter on the
    logger, deterministically and without I/O; a writer changes the world
    and reports an error or [nil]. *)
Class Collaborators `{Externals} := {
  call_filter : MessageFilter -> Logger.t -> bool;
  GetMessageRecord : MessageLevel -> string -> list Value -> World -> MessageRecord;
  execute_template : MessageFormatter -> Logger.t -> string;
  writer_Write : Writer -> string -> World -> World * option go_error;
}.

(** Modelled from the spec: [MessageFormatter.GetMessage] is not in
    [logger.go].  Rendering is a deterministic function of the record the
    logger holds, without I/O, and an absent (nil) Formatter is a no-op,
    never an error: it renders nothing. *)
Definition GetMessage `{Collaborators} (f : option MessageFormatter) (l : Logger.t) : string :=
  match f with
  | Some fm => execute_template fm l
  | None => ""
  end.

(** Modelled from the spec: the [Write] methods of the two handlers are not
    in [logger.go].  A handler writes the bytes directly to the destination
    it owns and reports the failure, if any, to its caller. *)
Definition StreamMessageHandler_Write `{Collaborators}
    (h : StreamMessageHandler.t) (b : string) (w : World) : World * option go_error :=
  writer_Write (StreamMessageHandler.Destination h) b w.

Definition FileMessageHandler_Write `{Collaborators}
    (h : FileMessageHandler.t) (b : string) (w : World) : World * option go_error :=
  writer_Write (FileMessageHandler.Destination h) b w.

(** ** Default configuration *)

Definition dquote : string := String (ascii_of_nat 34) EmptyString.

(** The raw string literal of [GetDefaultLogger]. *)
Definition default_Format : string :=
  "{{.Color}}[{{.Time}}] {{.LevelString | printf " +:+ dquote +:+ "%8s" +:+ dquote
  +:+ "}}  {{.FuncName}} {{.ShortFileName}} {{.Line}} {{.ColorClear}} {{.Message}}".

(** [func GetDefaultLogger() *Logger]: the fields the literal leaves out
    hold their zero value, [nil]. *)
Definition GetDefaultLogger `{Externals} : Logger.t :=
  Logger.mk _
    DEBUG
    None
    None
    (Some (StreamMessageHandler.mk _
             DEBUG
             (Some {| Format := default_Format; TimeFormat := "2006-01-02 15:04:05" |})
             os_Stdout
             None))
    None.

(** ** The dispatch *)

Inductive HandlerKind := Stream | File.

#[global] Instance HandlerKind_eq_dec : EqDecision HandlerKind.
Proof. solve_decision. Defined.

(** One entry per call of [log] that builds, renders or writes, in the
    order the calls are made.  Filters are predicates without effect and
    leave no entry. *)
Inductive Event `{Externals} :=
| EvRecord (level : MessageLevel) (format : string) (a : list Value)
| EvFormat (k : HandlerKind) (f : option MessageFormatter)
| EvWrite (k : HandlerKind) (b : string) (err : option go_error).

(** What a method with receiver [l *Logger] runs on: the logger [l] points
    to, the world, and the calls made so far. *)
Record State `{Externals} := mkState {
  logger : Logger.t;
  world : World;
  trace : list Event;
}.

(** A Go statement: it may change the state and yields a value. *)
Definition M `{Externals} (A : Type) : Type := State -> A * State.

#[global] Instance M_ret `{Externals} : MRet M := fun A a s => (a, s).
#[global] Instance M_bind `{Externals} : MBind M :=
  fun A B f m s => let '(a, s1) := m s in f a s1.

Definition exec `{Externals} {A} (m : M A) (s : State) : State := (m s).2.

Definition get_logger `{Externals} : M Logger.t := fun s => (logger s, s).

(** [if c { body }] *)
Definition when `{Externals} (c : bool) (body : M unit) : M unit :=
  if c then body else mret tt.

(** [l.Record = GetMessageRecord(level, format, a...)] *)
Definition assign_Record `{Collaborators}
    (level : MessageLevel) (format : string) (a : list Value) : M unit :=
  fun s =>
    let r := GetMessageRecord level format a (world s) in
    (tt, mkState _ (Logger.set_Record (Some r) (logger s)) (world s)
                   (trace s ++ [EvRecord level format a])).

(** [f == nil || (f != nil && f(l))]: a nil filter is not called. *)
Definition filter_allows `{Collaborators} (f : option MessageFilter) : M bool :=
  match f with
  | None => mret true
  | Some g => l ← get_logger; mret (call_filter g l)
  end.

(** [h.Formatter.GetMessage(l)], the argument of [Write], evaluated first. *)
Definition format_message `{Collaborators}
    (k : HandlerKind) (f : option MessageFormatter) : M string :=
  fun s =>
    (GetMessage f (logger s),
     mkState _ (logger s) (world s) (trace s ++ [EvFormat k f])).

(** [l.StreamHandler.Write([]byte(msg))] as a statement: what [Write]
    returns is dropped. *)
Definition stream_write `{Collaborators}
    (h : StreamMessageHandler.t) (msg : string) : M unit :=
  fun s =>
    let '(w, err) := StreamMessageHandler_Write h msg (world s) in
    (tt, mkState _ (logger s) w (trace s ++ [EvWrite Stream msg err])).

(** [l.FileHandler.Write([]byte(msg))] as a statement. *)
Definition file_write `{Collaborators}
    (h : FileMessageHandler.t) (msg : string) : M unit :=
  fun s =>
    let '(w, err) := FileMessageHandler_Write h msg (world s) in
    (tt, mkState _ (logger s) w (trace s ++ [EvWrite File msg err])).

(** [func (l *Logger) log(level MessageLevel, format string, a ...interface{})] *)
Definition log `{Collaborators}
    (level : MessageLevel) (format : string) (a : list Value) : M unit :=
  l ← get_logger;
  when (level_ge level (Logger.Level l)) (
    assign_Record level format a;;
    l ← get_logger;
    pass ← filter_allows (Logger.Filter l);
    when pass (
      match Logger.StreamHandler l with
      | Some h =>
          when (level_ge level (StreamMessageHandler.Level h)) (
            pass ← filter_allows (StreamMessageHandler.Filter h);
            when pass (
              msg ← format_message Stream (StreamMessageHandler.Formatter h);
              stream_write h msg))
      | None => mret tt
      end;;
      match Logger.FileHandler l with
      | Some h =>
          when (level_ge level (FileMessageHandler.Level h)) (
            pass ← filter_allows (FileMessageHandler.Filter h);
            when pass (
              msg ← format_message File (FileMessageHandler.Formatter h);
              file_write h msg))
      | None => mret tt
      end)).

(** The five public methods. *)
Definition Logger_DEBUG `{Collaborators} (format : string) (a : list Value) : M unit :=
  log DEBUG format a.
Definition Logger_INFO `{Collaborators} (format : string) (a : list Value) : M unit :=
  log INFO format a.
Definition Logger_WARNING `{Collaborators} (format : string) (a : list Value) : M unit :=
  log WARNING format a.
Definition Logger_ERROR `{Collaborators} (format : string) (a : list Value) : M unit :=
  log ERROR format a.
Definition Logger_CRITICAL `{Collaborators} (format : string) (a : list Value) : M unit :=
  log CRITICAL format a.

(** ** The template language of the default [Format]

    The part of Go's [text/template] that the default template uses: text,
    and actions [{{ pipeline }}] whose commands are a field of the data
    ([.Name]) or [printf] with a quoted format, the value of the command
    before it being [printf]'s last argument. *)

Inductive Command :=
| CField (name : string)
| CPrintf (fmt : string).

Inductive Node :=
| NText (text : string)
| NAction (pipeline : list Command).

(** Text between two actions; no piece is made of empty text. *)
Definition text_piece (acc : string) : list (bool * string) :=
  match acc with
  | EmptyString => []
  | _ => [(false, String.rev acc)]
  end.

(** Cut a template at the delimiters: [(false, t)] is text, [(true, a)] the
    inside of an action.  An action left open is a parse error. *)
Fixpoint scan (inside : bool) (acc : string) (s : string) : option (list (bool * string)) :=
  match s with
  | EmptyString => if inside then None else Some (text_piece acc)
  | String c rest =>
      match rest with
      | String c2 rest2 =>
          if Ascii.eqb c "{" && Ascii.eqb c2 "{" then
            if inside then None
            else app (text_piece acc) <$> scan true "" rest2
          else if Ascii.eqb c "}" && Ascii.eqb c2 "}" && inside then
            cons (true, String.rev acc) <$> scan false "" rest2
          else scan inside (String c acc) rest
      | EmptyString => scan inside (String c acc) rest
      end
  end.

Fixpoint split_pipe (cur : list string) (ws : list string) : list (list string) :=
  match ws with
  | [] => [reverse cur]
  | w :: ws' =>
      if decide (w = "|") then reverse cur :: split_pipe [] ws'
      else split_pipe (w :: cur) ws'
  end.

Definition unquote (q : string) : option string :=
  match q with
  | String c body =>
      match String.rev body with
      | String c' r =>
          if Ascii.eqb c (ascii_of_nat 34) && Ascii.eqb c' (ascii_of_nat 34)
          then Some (String.rev r) else None
      | EmptyString => None
      end
  | EmptyString => None
  end.

Definition parse_command (ws : list string) : option Command :=
  match ws with
  | [String c name] =>
      if Ascii.eqb c "." then Some (CField name) else None
  | [w; q] =>
      if decide (w = "printf") then CPrintf <$> unquote q else None
  | _ => None
  end.

Definition parse_node (p : bool * string) : option Node :=
  if p.1 then NAction <$> mapM parse_command (split_pipe [] (String.words p.2))
  else Some (NText p.2).

Definition parse_template (tpl : string) : option (list Node) :=
  scan false "" tpl ≫= mapM parse_node.

(** The verb [%<width>s] on a string of one-byte characters: spaces on the
    left up to the width, so that the value is aligned to the right. *)
Definition pad_left (width : nat) (v : string) : string :=
  string_of_list_ascii (replicate (width - String.length v)%nat " "%char) +:+ v.

Definition sprintf_s (fmt v : string) : option string :=
  match fmt with
  | String c rest =>
      match String.rev rest with
      | String c' digits =>
          if Ascii.eqb c "%" && Ascii.eqb c' "s"
          then (fun u => pad_left (Nat.of_uint u) v) <$> NilEmpty.uint_of_string (String.rev digits)
          else None
      | EmptyString => None
      end
  | EmptyString => None
  end.

(** A pipeline on the data [dot], which gives every field as it prints. *)
Fixpoint run_pipeline (dot : string -> string) (prev : option string) (cmds : list Command) : option string :=
  match cmds with
  | [] => prev
  | CField name :: cmds' =>
      match prev with
      | None => run_pipeline dot (Some (dot name)) cmds'
      | Some _ => None
      end
  | CPrintf fmt :: cmds' =>
      match prev with
      | Some v => sprintf_s fmt v ≫= fun r => run_pipeline dot (Some r) cmds'
      | None => None
      end
  end.

Definition run_node (dot : string -> string) (n : Node) : option string :=
  match n with
  | NText t => Some t
  | NAction p => run_pipeline dot None p
  end.

Definition render_template (tpl : string) (dot : string -> string) : option string :=
  nodes ← parse_template tpl;
  outs ← mapM (run_node dot) nodes;
  Some (String.concat "" outs).

(** ** The dispatch as the design describes it

    The algorithm of the design for one call at level [L], written over the
    list of attached handlers, to be compared with [log]. *)

(** What the two handler types have in common. *)
Record Handler `{Externals} := mkHandler {
  h_Level : MessageLevel;
  h_Filter : option MessageFilter;
  h_Formatter : option MessageFormatter;
  h_Destination : Writer;
}.

Definition handler_of `{Externals} (k : HandlerKind) (l : Logger.t) : option Handler :=
  match k with
  | Stream =>
      (fun h => mkHandler _ (StreamMessageHandler.Level h) (StreamMessageHandler.Filter h)
                  (StreamMessageHandler.Formatter h) (StreamMessageHandler.Destination h))
      <$> Logger.StreamHandler l
  | File =>
      (fun h => mkHandler _ (FileMessageHandler.Level h) (FileMessageHandler.Filter h)
                  (FileMessageHandler.Formatter h) (FileMessageHandler.Destination h))
      <$> Logger.FileHandler l
  end.

(** The attached handlers, Stream first, then File. *)
Definition attach `{Externals} (k : HandlerKind) (l : Logger.t) : list (HandlerKind * Handler) :=
  match handler_of k l with
  | Some h => [(k, h)]
  | None => []
  end.

Definition attached `{Externals} (l : Logger.t) : list (HandlerKind * Handler) :=
  (attach Stream l ++ attach File l)%list.

(** The logger that filters and formatters see during the call: [l] with the
    record built for this call. *)
Definition fresh `{Collaborators}
    (level : MessageLevel) (format : string) (a : list Value) (s : State) : Logger.t :=
  Logger.set_Record (Some (GetMessageRecord level format a (world s))) (logger s).

(** A filter gate: an absent filter lets the message through. *)
Definition passes `{Collaborators} (f : option MessageFilter) (l : Logger.t) : bool :=
  match f with
  | None => true
  | Some g => call_filter g l
  end.

(** Step 4 for one handler: skip below its level, skip when its filter
    denies, else render with its formatter and write. *)
Definition handle `{Collaborators} (level : MessageLevel) (l : Logger.t)
    (k : HandlerKind) (h : Handler) (w : World) : list Event * World :=
  if (level <? h_Level h)%Z then ([], w)
  else if negb (passes (h_Filter h) l) then ([], w)
  else
    let msg := GetMessage (h_Formatter h) l in
    let '(w1, err) := writer_Write (h_Destination h) msg w in
    ([EvFormat k (h_Formatter h); EvWrite k msg err], w1).

(** The turn of the handler of kind [k]: nothing when none is attached. *)
Definition turn `{Collaborators} (level : MessageLevel) (l : Logger.t)
    (k : HandlerKind) (w : World) : list Event * World :=
  match handler_of k l with
  | Some h => handle level l k h w
  | None => ([], w)
  end.

Definition handle_all `{Collaborators} (level : MessageLevel) (l : Logger.t)
    (hs : list (HandlerKind * Handler)) (w : World) : list Event * World :=
  foldl (fun acc kh => let '(evs, w1) := handle level l kh.1 kh.2 acc.2 in ((acc.1 ++ evs)%list, w1))
        ([], w) hs.

(** Steps 1 to 4. *)
Definition dispatch `{Collaborators}
    (level : MessageLevel) (format : string) (a : list Value) (s : State) : State :=
  if (level <? Logger.Level (logger s))%Z then s
  else
    let l := fresh level format a s in
    if negb (passes (Logger.Filter l) l)
    then mkState _ l (world s) (trace s ++ [EvRecord level format a])
    else
      let '(evs, w) := handle_all level l (attached l) (world s) in
      mkState _ l w (trace s ++ EvRecord level format a :: evs).

(** ** Reading a trace *)

(** The entries a call added to the trace. *)
Definition added `{Externals} (s s' : State) : list Event :=
  drop (length (trace s)) (trace s').

Definition is_record `{Externals} (e : Event) : bool :=
  match e with EvRecord _ _ _ => true | _ => false end.

Definition is_format `{Externals} (k : HandlerKind) (e : Event) : bool :=
  match e with EvFormat k' _ => bool_decide (k' = k) | _ => false end.

Definition is_write `{Externals} (k : HandlerKind) (e : Event) : bool :=
  match e with EvWrite k' _ _ => bool_decide (k' = k) | _ => false end.

Definition is_any_write `{Externals} (e : Event) : bool :=
  match e with EvWrite _ _ _ => true | _ => false end.

(** The number of writes to the handler of kind [k]. *)
Definition writes `{Externals} (k : HandlerKind) (evs : list Event) : nat :=
  length (List.filter (is_write k) evs).

(** The entry is a rendering or a write of the handler of kind [k]. *)
Definition touches `{Externals} (k : HandlerKind) (e : Event) : bool :=
  is_format k e || is_write k e.

(** The handler of kind [k] rendered the message and wrote it. *)
Definition served `{Externals} (k : HandlerKind) (evs : list Event) : bool :=
  existsb (is_format k) evs && existsb (is_write k) evs.

(** Whether the handler of kind [k] is attached and lets the message in. *)
Definition eligible `{Collaborators} (level : MessageLevel) (l : Logger.t) (k : HandlerKind) : bool :=
  match handler_of k l with
  | Some h => level_ge level (h_Level h) && passes (h_Filter h) l
  | None => false
  end.

(** The four gates of the handler of kind [k], [false] when it is absent. *)
Definition gates `{Collaborators} (level : MessageLevel) (l : Logger.t) (k : HandlerKind) : bool :=
  level_ge level (Logger.Level l) && passes (Logger.Filter l) l && eligible level l k.

(** ** Reading a sequence back *)

(** What [fmt.Sscanf] does with the verb [%d] on a string that is one
    integer: the inverse of [sprintf_d]. *)
Definition sscanf_d (t : string) : option Z :=
  Z.of_int <$> NilZero.int_of_string t.

(** The character [x] does not occur in the string. *)
Fixpoint lacks (x : ascii) (t : string) : Prop :=
  match t with
  | EmptyString => True
  | String c t' => c <> x /\ lacks x t'
  end.

(** An entry without the outcome of the write: what was attempted. *)
Definition attempt `{Externals} (e : Event) : Event :=
  match e with
  | EvWrite k b _ => EvWrite k b None
  | _ => e
  end.

(** ** Calls in sequence *)

(** The five public methods, each with the level it passes to [log]. *)
Definition public_methods `{Collaborators}
    : list (MessageLevel * (string -> list Value -> M unit)) :=
  [ (DEBUG, Logger_DEBUG); (INFO, Logger_INFO); (WARNING, Logger_WARNING);
    (ERROR, Logger_ERROR); (CRITICAL, Logger_CRITICAL) ].

(** Calls of [log] made one after the other on the same logger, each given
    as level, format and arguments. *)
Definition run `{Collaborators}
    (calls : list (MessageLevel * string * list Value)) (s : State) : State :=
  foldl (fun s1 c => exec (log c.1.1 c.1.2 c.2) s1) s calls.

(** The calls of a sequence that pass the level gate of a logger at [m]. *)
Definition admitted `{Externals}
    (m : MessageLevel) (calls : list (MessageLevel * string * list Value))
    : list (MessageLevel * string * list Value) :=
  List.filter (fun c => level_ge c.1.1 m) calls.

(** ** A small world to run the model in *)

Module Demo.

(** Filters by name: allow, deny, and allow when the logger holds a record. *)
Inductive filter := Allow | Deny | HasRecord.

(** The clock, the descriptors that are closed, and what was written. *)
Record world := mkWorld {
  now : nat;
  closed : list nat;
  written : list (nat * string);
}.

Definition externals : Externals := {|
  MessageFilter := filter;
  MessageRecord := Z * string * nat;
  Value := string;
  Writer := nat;
  World := world;
  os_Stdout := 1%nat;
|}.

#[local] Existing Instance externals.

Definition call (f : filter) (l : Logger.t) : bool :=
  match f with
  | Allow => true
  | Deny => false
  | HasRecord => bool_decide (is_Some (Logger.Record_ l))
  end.

Definition build (level : MessageLevel) (format : string) (a : list string) (w : world)
    : Z * string * nat :=
  (level, format, now w).

Definition render (fm : MessageFormatter) (l : Logger.t) : string :=
  match Logger.Record_ l with
  | Some r => r.1.2
  | None => ""
  end.

Definition write (d : nat) (b : string) (w : world) : world * option go_error :=
  if existsb (Nat.eqb d) (closed w)
  then (w, Some "file already closed")
  else (mkWorld (now w) (closed w) (written w ++ [(d, b)]), None).

Definition collaborators : @Collaborators externals :=
  @Build_Collaborators externals call build render write.

#[local] Existing Instance collaborators.

Definition plain : MessageFormatter := {| Format := "{{.Message}}"; TimeFormat := "" |}.

Definition console : StreamMessageHandler.t :=
  StreamMessageHandler.mk _ DEBUG (Some plain) 1%nat None.

Definition file3 : FileMessageHandler.t :=
  FileMessageHandler.mk _ WARNING (Some plain) 3%nat (Some HasRecord).

(** Logger at INFO, console handler at DEBUG, file handler at WARNING on
    descriptor 3. *)
Definition two_sinks : Logger.t :=
  Logger.mk _ INFO None None (Some console) (Some file3).

(** The same with no formatter on either handler. *)
Definition bare_sinks : Logger.t :=
  Logger.mk _ INFO None None
    (Some (StreamMessageHandler.mk _ DEBUG None 1%nat None))
    (Some (FileMessageHandler.mk _ WARNING None 3%nat None)).

(** The console is closed: every write to descriptor 1 fails. *)
Definition console_closed : world := mkWorld 7 [1%nat] [].

Definition all_open : world := mkWorld 7 [] [].

Definition start (l : Logger.t) (w : world) : State := mkState _ l w [].

End Demo.

(** * Properties *)

(** ** The severity scale and its tables *)

Lemma LevelColorFlag_length : length LevelColorFlag = 51%nat.
Proof. reflexivity. Qed.

(** The colour table answers exactly the indices from 0 to 50. *)
Lemma LevelColorFlag_defined (l : MessageLevel) :
  is_Some (slice_index LevelColorFlag l) <-> (0 <= l <= 50)%Z.
Proof.
  unfold slice_index. destruct (decide (0 <= l)%Z) as [Hl|Hl].
  - rewrite lookup_lt_is_Some, LevelColorFlag_length. lia.
  - split; [intros [x Hx]; discriminate | lia].
Qed.

(** C7: the colour start sequence of each of the five levels is
    ESC[<style>;<color>m, with blue 34 for DEBUG, green 32 for INFO, yellow 33
    for WARNING, red 31 for ERROR and magenta 35 for CRITICAL, style 1 for
    ERROR and CRITICAL and style 0 for the other three; the clear sequence,
    the same for all, is ESC[0m. *)
Theorem level_colour_sequences :
  slice_index LevelColorFlag DEBUG = Some (ESC +:+ "[0;34m") /\
  slice_index LevelColorFlag INFO = Some (ESC +:+ "[0;32m") /\
  slice_index LevelColorFlag WARNING = Some (ESC +:+ "[0;33m") /\
  slice_index LevelColorFlag ERROR = Some (ESC +:+ "[1;31m") /\
  slice_index LevelColorFlag CRITICAL = Some (ESC +:+ "[1;35m") /\
  LevelColorSeqClear = ESC +:+ "[0m" /\
  (forall color style : Z,
     levelColorSeq color style =
     ESC +:+ "[" +:+ sprintf_d style +:+ ";" +:+ sprintf_d color +:+ "m") /\
  ColorRed = 31 /\ ColorGreen = 32 /\ ColorYellow = 33 /\ ColorBlue = 34 /\
  ColorMagenta = 35 /\
  ESC = String (ascii_of_nat 27) EmptyString.
Proof. repeat split. Qed.

Lemma LevelColorFlag_entries (n : nat) :
  (n < 51)%nat -> LevelColorFlag !! n = Some (colour_at (Z.of_nat n)).
Proof.
  intros Hn.
  assert (Hall : forallb (fun i => bool_decide
                   (LevelColorFlag !! i = Some (colour_at (Z.of_nat i)))) (seq 0 51) = true)
    by (vm_compute; reflexivity).
  rewrite forallb_forall in Hall.
  specialize (Hall n). rewrite in_seq in Hall.
  eapply bool_decide_eq_true_1. apply Hall. lia.
Qed.

Lemma LevelString_entries (l : MessageLevel) : map_index LevelString l = name_at l.
Proof.
  unfold map_index, name_at, LevelString. simpl.
  destruct (decide (l = DEBUG)) as [->|H1]; [reflexivity|].
  destruct (decide (l = INFO)) as [->|H2]; [reflexivity|].
  destruct (decide (l = WARNING)) as [->|H3]; [reflexivity|].
  destruct (decide (l = ERROR)) as [->|H4]; [reflexivity|].
  destruct (decide (l = CRITICAL)) as [->|H5]; [reflexivity|].
  rewrite !lookup_insert_ne by congruence. reflexivity.
Qed.

(** C9, as the code has it: the name lookup gives a value for every rank,
    the name of the level for the five levels and the empty string for every
    other rank; the colour lookup gives a value exactly for the ranks from 0
    to 50, the colour sequence for the five levels and the empty string
    between them, and fails on every other rank. *)
Theorem level_lookups (l : MessageLevel) :
  map_index LevelString l = name_at l /\
  slice_index LevelColorFlag l =
    if bool_decide (0 <= l <= 50)%Z then Some (colour_at l) else None.
Proof.
  split; [apply LevelString_entries|].
  unfold slice_index. case_bool_decide as Hr; case_decide as Hl.
  - rewrite LevelColorFlag_entries by lia. by rewrite Z2Nat.id.
  - lia.
  - apply lookup_ge_None. rewrite LevelColorFlag_length. lia.
  - reflexivity.
Qed.

(** C9 as stated fails: the rank 60, above CRITICAL, has no entry in the
    colour table, so the lookup does not succeed for every rank. *)
Lemma colour_lookup_fails_above_CRITICAL :
  slice_index LevelColorFlag 60 = None /\
  ~ (forall l : MessageLevel, is_Some (slice_index LevelColorFlag l)).
Proof.
  split; [reflexivity|].
  intros Hall. destruct (Hall 60) as [x Hx]. discriminate Hx.
Qed.

(** ** The default configuration *)

(** C5: the default Logger has minimum level DEBUG and one handler, a Stream
    handler (no File handler) at minimum level DEBUG that writes to the
    standard output; its template renders, in this order, the colour start,
    the time, the level name aligned to the right in 8 characters, the
    function name, the short file name, the line number, the colour clear and
    the message. *)
Theorem default_logger_configuration `{Externals} :
  let l := GetDefaultLogger in
  Logger.Level l = DEBUG /\ DEBUG = 10 /\
  Logger.Filter l = None /\
  Logger.FileHandler l = None /\
  length (attached l) = 1%nat /\
  exists sh fm,
    Logger.StreamHandler l = Some sh /\
    StreamMessageHandler.Level sh = DEBUG /\
    StreamMessageHandler.Destination sh = os_Stdout /\
    StreamMessageHandler.Filter sh = None /\
    StreamMessageHandler.Formatter sh = Some fm /\
    forall dot : string -> string,
      render_template (Format fm) dot =
      Some (dot "Color" +:+ "[" +:+ dot "Time" +:+ "] " +:+
            pad_left 8 (dot "LevelString") +:+ "  " +:+
            dot "FuncName" +:+ " " +:+ dot "ShortFileName" +:+ " " +:+
            dot "Line" +:+ " " +:+ dot "ColorClear" +:+ " " +:+ dot "Message").
Proof.
  intros l. subst l. repeat (split; [reflexivity|]).
  eexists _, _. repeat (split; [reflexivity|]).
  intros dot. vm_compute. reflexivity.
Qed.

(** ** The dispatch *)

Section Dispatch.
Context `{Collaborators}.

Implicit Types (level : MessageLevel) (format : string) (a : list Value).
Implicit Types (s : State) (l : Logger.t) (k : HandlerKind) (h : Handler).

Lemma level_ge_ltb level m : level_ge level m = negb (level <? m)%Z.
Proof. unfold level_ge. apply Z.leb_antisym. Qed.

(** [log] computes what the design's algorithm computes. *)
Lemma log_dispatch level format a s :
  log level format a s = (tt, dispatch level format a s).
Proof.
  unfold log, dispatch, mbind, M_bind, mret, M_ret, get_logger, when.
  rewrite level_ge_ltb.
  destruct (level <? Logger.Level (logger s))%Z eqn:Hl; simpl; [by destruct s|].
  unfold filter_allows, passes, handle_all, attached, attach, handler_of, handle,
    fresh, stream_write, file_write, StreamMessageHandler_Write,
    FileMessageHandler_Write, mbind, M_bind, mret, M_ret, get_logger.
  destruct s as [[lv fl rc sh fh] w tr]; simpl in *.
  destruct fl as [g|]; simpl; [destruct (call_filter g _); simpl; [|reflexivity]|];
  (destruct sh as [[slv sf sd sfl]|]; simpl;
   [rewrite (level_ge_ltb level slv); destruct (level <? slv)%Z; simpl;
    [|destruct sfl as [sg|]; simpl; [destruct (call_filter sg _); simpl|];
      try destruct (writer_Write sd _ _) as [w1 e1]; simpl]|]);
  (destruct fh as [[flv ff fd ffl]|]; simpl;
   [rewrite (level_ge_ltb level flv); destruct (level <? flv)%Z; simpl;
    [|destruct ffl as [fg|]; simpl; [destruct (call_filter fg _); simpl|];
      try destruct (writer_Write fd _ _) as [w2 e2]; simpl]|]);
  rewrite <- ?app_assoc; reflexivity.
Qed.

Lemma exec_log level format a s :
  exec (log level format a) s = dispatch level format a s.
Proof. unfold exec. by rewrite log_dispatch. Qed.

Lemma level_ge_true (x y : MessageLevel) : level_ge x y = true <-> (y <= x)%Z.
Proof. unfold level_ge. apply Z.leb_le. Qed.

Lemma added_app s l (w : World) (evs : list Event) :
  added s (mkState _ l w (trace s ++ evs)) = evs.
Proof. unfold added. simpl. apply drop_app_length. Qed.

Lemma added_self s : added s s = [].
Proof. unfold added. apply drop_all. Qed.

Lemma handle_all_attached level l (w : World) :
  handle_all level l (attached l) w =
  ((turn level l Stream w).1 ++ (turn level l File (turn level l Stream w).2).1,
   (turn level l File (turn level l Stream w).2).2)%list.
Proof.
  unfold handle_all, attached, attach, turn.
  destruct (handler_of Stream l) as [hs|], (handler_of File l) as [hf|]; simpl.
  - destruct (handle level l Stream hs w) as [e1 w1]; simpl.
    destruct (handle level l File hf w1) as [e2 w2]; reflexivity.
  - destruct (handle level l Stream hs w) as [e1 w1]; simpl.
    by rewrite app_nil_r.
  - destruct (handle level l File hf w) as [e2 w2]; reflexivity.
  - reflexivity.
Qed.

(** The entries one call adds. *)
Lemma log_added level format a s :
  added s (exec (log level format a) s) =
  if level_ge level (Logger.Level (logger s)) then
    let l := fresh level format a s in
    EvRecord level format a ::
    (if passes (Logger.Filter l) l then
       (turn level l Stream (world s)).1 ++
       (turn level l File (turn level l Stream (world s)).2).1
     else [])
  else [].
Proof.
  rewrite exec_log, level_ge_ltb. unfold dispatch.
  destruct (level <? Logger.Level (logger s))%Z; simpl; [apply added_self|].
  destruct (passes _ _); simpl.
  - rewrite handle_all_attached. apply added_app.
  - apply added_app.
Qed.

Lemma handle_eligible level l k h (w : World) :
  handle level l k h w =
  if level_ge level (h_Level h) && passes (h_Filter h) l then
    let msg := GetMessage (h_Formatter h) l in
    ([EvFormat k (h_Formatter h);
      EvWrite k msg (writer_Write (h_Destination h) msg w).2],
     (writer_Write (h_Destination h) msg w).1)
  else ([], w).
Proof.
  unfold handle. rewrite level_ge_ltb.
  destruct (level <? h_Level h)%Z; simpl; [reflexivity|].
  destruct (passes _ _); simpl; [|reflexivity].
  by destruct (writer_Write _ _ _).
Qed.

(** The entries of a turn belong to its own handler. *)
Lemma turn_flags level l k k' (w : World) :
  existsb (is_format k') (turn level l k w).1 = bool_decide (k = k') && eligible level l k /\
  existsb (is_write k') (turn level l k w).1 = bool_decide (k = k') && eligible level l k.
Proof.
  unfold turn, eligible. destruct (handler_of k l) as [h|]; simpl.
  - rewrite handle_eligible.
    destruct (level_ge _ _ && passes _ _); simpl;
      rewrite ?orb_false_r, ?andb_true_r, ?andb_false_r; auto.
  - by rewrite andb_false_r.
Qed.

Lemma gates_eligible level l k :
  gates level l k =
  level_ge level (Logger.Level l) && passes (Logger.Filter l) l && eligible level l k.
Proof. reflexivity. Qed.

(** A handler is served exactly when its four gates are open. *)
Lemma served_gates level format a s k :
  served k (added s (exec (log level format a) s)) =
  gates level (fresh level format a s) k.
Proof.
  rewrite log_added, gates_eligible. unfold served. simpl.
  destruct (level_ge level (Logger.Level (logger s))); simpl; [|reflexivity].
  destruct (passes _ _); simpl; [|reflexivity].
  rewrite !existsb_app.
  destruct (turn_flags level (fresh level format a s) Stream k (world s)) as [-> ->].
  destruct (turn_flags level (fresh level format a s) File k
              (turn level (fresh level format a s) Stream (world s)).2) as [-> ->].
  destruct k; simpl; rewrite ?orb_false_r; by destruct (eligible _ _ _).
Qed.


Lemma handler_of_fresh level format a s k :
  handler_of k (fresh level format a s) = handler_of k (logger s).
Proof. by destruct k. Qed.

Lemma gates_true level format a s k h :
  handler_of k (logger s) = Some h ->
  gates level (fresh level format a s) k = true <->
  (Logger.Level (logger s) <= level)%Z /\ (h_Level h <= level)%Z /\
  passes (Logger.Filter (logger s)) (fresh level format a s) = true /\
  passes (h_Filter h) (fresh level format a s) = true.
Proof.
  intros Hh. unfold gates, eligible. rewrite handler_of_fresh, Hh. simpl.
  rewrite !andb_true_iff, !level_ge_true. tauto.
Qed.

(** A turn adds nothing, or one rendering followed by one write. *)
Lemma turn_shape level l k (w : World) :
  turn level l k w =
  if eligible level l k then
    match handler_of k l with
    | Some h =>
        let msg := GetMessage (h_Formatter h) l in
        ([EvFormat k (h_Formatter h);
          EvWrite k msg (writer_Write (h_Destination h) msg w).2],
         (writer_Write (h_Destination h) msg w).1)
    | None => ([], w)
    end
  else ([], w).
Proof.
  unfold turn, eligible. destruct (handler_of k l) as [h|]; [|reflexivity].
  apply handle_eligible.
Qed.

Lemma turn_no_record level l k (w : World) :
  existsb is_record (turn level l k w).1 = false.
Proof.
  rewrite turn_shape.
  destruct (eligible level l k); [|reflexivity].
  by destruct (handler_of k l).
Qed.

(** C1: at level L a handler formats and writes the message if and only if
    L >= Logger.Level, L >= the handler's Level, the Logger-level Filter (when
    present) returns true and the handler's Filter (when present) returns
    true.  A false Logger-level Filter suppresses both handlers; a false
    handler Filter suppresses its own handler and leaves the other one to its
    own four gates.  Formatting and writing are what the handler really does:
    with the four gates open the call renders the logger holding this call's
    record with the handler's own Formatter and writes these bytes to the
    handler's own destination, in the world as it is when the handler's turn
    comes, and with a gate closed the handler renders nothing, writes
    nothing and leaves the world alone; the state after the call is the one
    these turns produce. *)
Theorem log_serves_iff_four_gates level format a s k h :
  handler_of k (logger s) = Some h ->
  let l' := fresh level format a s in
  let evs := added s (exec (log level format a) s) in
  let out := fun (k0 : HandlerKind) (w : World) =>
    match handler_of k0 (logger s) with
    | Some h0 =>
        if level_ge level (h_Level h0) && passes (h_Filter h0) l' then
          let msg := GetMessage (h_Formatter h0) l' in
          ([EvFormat k0 (h_Formatter h0);
            EvWrite k0 msg (writer_Write (h_Destination h0) msg w).2],
           (writer_Write (h_Destination h0) msg w).1)
        else ([], w)
    | None => ([], w)
    end in
  let before := match k with Stream => world s | File => (out Stream (world s)).2 end in
  let open :=
    level_ge level (Logger.Level (logger s)) && level_ge level (h_Level h) &&
    passes (Logger.Filter (logger s)) l' && passes (h_Filter h) l' in
  (served k evs = true <->
     (Logger.Level (logger s) <= level)%Z /\ (h_Level h <= level)%Z /\
     passes (Logger.Filter (logger s)) l' = true /\ passes (h_Filter h) l' = true)
  /\ (passes (Logger.Filter (logger s)) l' = false ->
      served Stream evs = false /\ served File evs = false)
  /\ (passes (h_Filter h) l' = false ->
      served k evs = false /\
      forall k' h', k' <> k -> handler_of k' (logger s) = Some h' ->
        (served k' evs = true <->
           (Logger.Level (logger s) <= level)%Z /\ (h_Level h' <= level)%Z /\
           passes (Logger.Filter (logger s)) l' = true /\ passes (h_Filter h') l' = true))
  /\ List.filter (touches k) evs =
     (if open then
        [EvFormat k (h_Formatter h);
         EvWrite k (GetMessage (h_Formatter h) l')
           (writer_Write (h_Destination h) (GetMessage (h_Formatter h) l') before).2]
      else [])
  /\ exec (log level format a) s =
     (if level_ge level (Logger.Level (logger s)) then
        if passes (Logger.Filter (logger s)) l' then
          mkState _ l' (out File (out Stream (world s)).2).2
            (trace s ++ EvRecord level format a ::
               (out Stream (world s)).1 ++ (out File (out Stream (world s)).2).1)
        else mkState _ l' (world s) (trace s ++ [EvRecord level format a])
      else s).
Proof.
  intros Hh l' evs out before open.
  assert (Hout : forall k0 (w : World), turn level l' k0 w = out k0 w).
  { intros k0 w. rewrite turn_shape. unfold eligible, out. subst l'.
    rewrite handler_of_fresh.
    destruct (handler_of k0 (logger s)) as [h0|]; [|reflexivity].
    by destruct (level_ge level (h_Level h0) && passes (h_Filter h0) _). }
  assert (Hstate : exec (log level format a) s =
     (if level_ge level (Logger.Level (logger s)) then
        if passes (Logger.Filter (logger s)) l' then
          mkState _ l' (out File (out Stream (world s)).2).2
            (trace s ++ EvRecord level format a ::
               (out Stream (world s)).1 ++ (out File (out Stream (world s)).2).1)
        else mkState _ l' (world s) (trace s ++ [EvRecord level format a])
      else s)).
  { rewrite exec_log, level_ge_ltb. unfold dispatch. fold l'.
    destruct (level <? Logger.Level (logger s))%Z; simpl; [reflexivity|].
    destruct (passes (Logger.Filter (logger s)) l'); simpl; [|reflexivity].
    by rewrite handle_all_attached, !Hout. }
  split; [|split; [|split; [|split]]].
  - subst evs. rewrite served_gates. by apply gates_true.
  - intros Hf. subst evs. rewrite !served_gates. unfold gates. simpl.
    fold l'. rewrite Hf, !andb_false_r. auto.
  - intros Hf. split.
    + subst evs. rewrite served_gates. unfold gates, eligible.
      rewrite handler_of_fresh, Hh. fold l'. rewrite Hf, !andb_false_r. reflexivity.
    + intros k' h' _ Hh'. subst evs. rewrite served_gates. by apply gates_true.
  - subst evs. rewrite Hstate. subst open before out. cbv beta.
    destruct k; rewrite ?Hh;
      [destruct (handler_of File (logger s)) as [hf|]
      |destruct (handler_of Stream (logger s)) as [hs|]];
      (destruct (level_ge level (Logger.Level (logger s)));
       [|by rewrite added_self]);
      (destruct (passes (Logger.Filter (logger s)) l');
       [|rewrite added_app, andb_false_r; reflexivity]);
      rewrite added_app;
      repeat (match goal with
              | |- context [level_ge ?x ?y && passes ?f ?l] =>
                  destruct (level_ge x y) eqn:?; destruct (passes f l) eqn:?
              end; cbn -[handler_of GetMessage]);
      reflexivity.
  - exact Hstate.
Qed.

(** C2: a log call leaves Level, Filter, StreamHandler and FileHandler of the
    Logger as they were.  When L >= Logger.Level the Record field holds the
    record built for this call, built once; when L < Logger.Level the call
    changes nothing at all: no record is built, the Record field is
    unchanged, no handler is invoked. *)
Theorem log_frame level format a s :
  let s' := exec (log level format a) s in
  Logger.Level (logger s') = Logger.Level (logger s) /\
  Logger.Filter (logger s') = Logger.Filter (logger s) /\
  Logger.StreamHandler (logger s') = Logger.StreamHandler (logger s) /\
  Logger.FileHandler (logger s') = Logger.FileHandler (logger s) /\
  if level_ge level (Logger.Level (logger s)) then
    Logger.Record_ (logger s') = Some (GetMessageRecord level format a (world s)) /\
    exists evs, added s s' = EvRecord level format a :: evs /\ existsb is_record evs = false
  else s' = s.
Proof.
  intros s'. subst s'.
  assert (Hl : logger (exec (log level format a) s) =
               if level_ge level (Logger.Level (logger s))
               then fresh level format a s else logger s).
  { rewrite exec_log, level_ge_ltb. unfold dispatch.
    destruct (level <? _)%Z; simpl; [reflexivity|].
    destruct (passes _ _); simpl; [|reflexivity].
    by destruct (handle_all _ _ _ _). }
  rewrite Hl, log_added.
  destruct (level_ge level (Logger.Level (logger s))) eqn:Hge; simpl.
  - repeat split; try reflexivity.
    eexists; split; [reflexivity|].
    destruct (passes _ _); [|reflexivity].
    by rewrite existsb_app, !turn_no_record.
  - repeat split; try reflexivity.
    rewrite exec_log. unfold dispatch.
    rewrite level_ge_ltb in Hge. apply negb_false_iff in Hge. by rewrite Hge.
Qed.

Lemma turn_attached level l k h (w : World) :
  handler_of k l = Some h -> eligible level l k = true ->
  turn level l k w =
  ([EvFormat k (h_Formatter h);
    EvWrite k (GetMessage (h_Formatter h) l)
      (writer_Write (h_Destination h) (GetMessage (h_Formatter h) l) w).2],
   (writer_Write (h_Destination h) (GetMessage (h_Formatter h) l) w).1).
Proof. intros Hh He. by rewrite turn_shape, He, Hh. Qed.

Lemma gates_split level l k :
  gates level l k = true ->
  level_ge level (Logger.Level l) = true /\ passes (Logger.Filter l) l = true /\
  eligible level l k = true.
Proof. unfold gates. rewrite !andb_true_iff. tauto. Qed.

(** C3: when the Stream handler's write reports a failure, the File handler
    still renders the same record and writes it, and nothing of the failure
    reaches the caller: whether the File handler is served does not depend on
    the result of the Stream write, and [log] and the five public methods
    yield no value. *)
Theorem stream_write_failure_isolated level format a s sh fh w1 e :
  Logger.StreamHandler (logger s) = Some sh ->
  Logger.FileHandler (logger s) = Some fh ->
  let l' := fresh level format a s in
  let msg_s := GetMessage (StreamMessageHandler.Formatter sh) l' in
  let msg_f := GetMessage (FileMessageHandler.Formatter fh) l' in
  gates level l' Stream = true ->
  gates level l' File = true ->
  StreamMessageHandler_Write sh msg_s (world s) = (w1, Some e) ->
  log level format a s =
    (tt, mkState _ l' (FileMessageHandler_Write fh msg_f w1).1
           (trace s ++
            [EvRecord level format a;
             EvFormat Stream (StreamMessageHandler.Formatter sh);
             EvWrite Stream msg_s (Some e);
             EvFormat File (FileMessageHandler.Formatter fh);
             EvWrite File msg_f (FileMessageHandler_Write fh msg_f w1).2]))
  /\ served File (added s (exec (log level format a) s)) = gates level l' File
  /\ Logger_DEBUG format a = log DEBUG format a
  /\ Logger_INFO format a = log INFO format a
  /\ Logger_WARNING format a = log WARNING format a
  /\ Logger_ERROR format a = log ERROR format a
  /\ Logger_CRITICAL format a = log CRITICAL format a.
Proof.
  intros Hs Hf l' msg_s msg_f Hgs Hgf Hw.
  split; [|split; [apply served_gates | repeat split]].
  rewrite log_dispatch. f_equal. unfold dispatch.
  apply gates_split in Hgs as (Hlv & Hp & Hes).
  apply gates_split in Hgf as (_ & _ & Hef).
  simpl in Hlv, Hp. rewrite level_ge_ltb in Hlv. apply negb_true_iff in Hlv.
  rewrite Hlv. fold l'. simpl. rewrite Hp. simpl.
  rewrite handle_all_attached.
  assert (Hhs : handler_of Stream l' = Some
            (mkHandler _ (StreamMessageHandler.Level sh) (StreamMessageHandler.Filter sh)
               (StreamMessageHandler.Formatter sh) (StreamMessageHandler.Destination sh))).
  { unfold handler_of. simpl. by rewrite Hs. }
  assert (Hhf : handler_of File l' = Some
            (mkHandler _ (FileMessageHandler.Level fh) (FileMessageHandler.Filter fh)
               (FileMessageHandler.Formatter fh) (FileMessageHandler.Destination fh))).
  { unfold handler_of. simpl. by rewrite Hf. }
  rewrite (turn_attached _ _ _ _ _ Hhs Hes). simpl.
  rewrite (turn_attached _ _ _ _ _ Hhf Hef). simpl.
  unfold StreamMessageHandler_Write in Hw. fold msg_s msg_f. rewrite Hw. simpl.
  reflexivity.
Qed.

(** C4: an absent component never stops the dispatch.  With a nil
    Logger-level Filter, or a nil handler Filter, the handler is served
    exactly when the remaining gates are open; with a nil Formatter on a
    handler whose gates are open, the rendering (of nothing) and the write
    take place and every handler is served as its own gates say; and the
    call returns. *)
Theorem nil_components_pass_through level format a s k h :
  handler_of k (logger s) = Some h ->
  let l' := fresh level format a s in
  let evs := added s (exec (log level format a) s) in
  (Logger.Filter (logger s) = None ->
     served k evs =
     level_ge level (Logger.Level (logger s)) && level_ge level (h_Level h) &&
     passes (h_Filter h) l')
  /\ (h_Filter h = None ->
     served k evs =
     level_ge level (Logger.Level (logger s)) && passes (Logger.Filter (logger s)) l' &&
     level_ge level (h_Level h))
  /\ (h_Formatter h = None -> gates level l' k = true ->
     (exists err, In (EvFormat k None) evs /\ In (EvWrite k "" err) evs) /\
     forall k', served k' evs = gates level l' k')
  /\ log level format a s = (tt, exec (log level format a) s).
Proof.
  intros Hh l' evs. subst evs. split; [|split; [|split]].
  - intros Hn. rewrite served_gates. unfold gates, eligible.
    rewrite handler_of_fresh, Hh. simpl. rewrite Hn. simpl.
    by rewrite andb_true_r, andb_assoc.
  - intros Hn. rewrite served_gates. unfold gates, eligible.
    rewrite handler_of_fresh, Hh, Hn. simpl. by rewrite andb_true_r.
  - intros Hn Hg. split; [|intros k'; apply served_gates].
    rewrite log_added. fold l'.
    apply gates_split in Hg as (Hlv & Hp & He). simpl in Hlv, Hp.
    rewrite Hlv. simpl. rewrite Hp.
    assert (Hh' : handler_of k l' = Some h) by (subst l'; by rewrite handler_of_fresh).
    destruct k.
    + rewrite (turn_attached _ _ _ _ _ Hh' He), Hn. simpl.
      eexists. split; [right; left; reflexivity | right; right; left; reflexivity].
    + eexists.
      rewrite (turn_attached _ _ _ _ (turn level l' Stream (world s)).2 Hh' He), Hn.
      simpl. split; right; apply in_or_app; right; simpl; eauto.
  - unfold exec. by destruct (log level format a s) as [[] ?].
Qed.

(** C8: in a call that passes the gates of the Logger, the Stream handler
    has its turn first and the File handler second, on the world the Stream
    handler left.  A turn does nothing when the handler is absent, when L is
    below its Level or when its Filter denies; otherwise it renders with the
    handler's own Formatter and writes the rendering to the handler's own
    destination. *)
Theorem handlers_in_fixed_order level format a s :
  let l' := fresh level format a s in
  level_ge level (Logger.Level (logger s)) = true ->
  passes (Logger.Filter (logger s)) l' = true ->
  let r1 := turn level l' Stream (world s) in
  let r2 := turn level l' File r1.2 in
  exec (log level format a) s =
    mkState _ l' r2.2 (trace s ++ EvRecord level format a :: r1.1 ++ r2.1)
  /\ forall k (w : World),
      turn level l' k w =
      match handler_of k (logger s) with
      | None => ([], w)
      | Some h =>
          if (level <? h_Level h)%Z then ([], w)
          else if negb (passes (h_Filter h) l') then ([], w)
          else
            let msg := GetMessage (h_Formatter h) l' in
            ([EvFormat k (h_Formatter h);
              EvWrite k msg (writer_Write (h_Destination h) msg w).2],
             (writer_Write (h_Destination h) msg w).1)
      end.
Proof.
  intros l' Hlv Hp r1 r2. split.
  - rewrite exec_log. unfold dispatch.
    rewrite level_ge_ltb in Hlv. apply negb_true_iff in Hlv. rewrite Hlv.
    fold l'. simpl. rewrite Hp. simpl. by rewrite handle_all_attached.
  - intros k w. unfold turn. subst l'. rewrite handler_of_fresh.
    destruct (handler_of k (logger s)) as [h|]; [|reflexivity].
    unfold handle. destruct (level <? h_Level h)%Z; [reflexivity|].
    destruct (passes (h_Filter h) _); simpl; [|reflexivity].
    by destruct (writer_Write _ _ _).
Qed.

(** C10: a Logger holds at most two handlers, one of each kind, and a log
    call makes at most one write to the Stream handler and at most one to
    the File handler, so at most two writes. *)
Theorem at_most_two_writes level format a s :
  let evs := added s (exec (log level format a) s) in
  (length (attached (logger s)) <= 2)%nat /\
  (writes Stream evs <= 1)%nat /\
  (writes File evs <= 1)%nat /\
  length (List.filter is_any_write evs) = (writes Stream evs + writes File evs)%nat /\
  (length (List.filter is_any_write evs) <= 2)%nat.
Proof.
  intros evs. subst evs. rewrite log_added. split.
  { unfold attached, attach.
    destruct (handler_of Stream (logger s)), (handler_of File (logger s)); simpl; lia. }
  destruct (level_ge _ _); simpl; [|unfold writes; simpl; lia].
  destruct (passes _ _); simpl; [|unfold writes; simpl; lia].
  rewrite !turn_shape. set (l' := fresh level format a s).
  destruct (eligible level l' Stream), (eligible level l' File);
    destruct (handler_of Stream l'), (handler_of File l');
    unfold writes; simpl; lia.
Qed.

(** C6: the ranks are DEBUG=10, INFO=20, WARNING=30, ERROR=40, CRITICAL=50;
    a rank is at least as severe as another when it is at least as large as
    an integer; and the level gate of the Logger and the level gate of each
    handler are this comparison. *)
Theorem severity_ranks_and_level_gates level format a s k :
  DEBUG = 10 /\ INFO = 20 /\ WARNING = 30 /\ ERROR = 40 /\ CRITICAL = 50 /\
  (forall x y : MessageLevel, level_ge x y = true <-> (y <= x)%Z) /\
  served k (added s (exec (log level format a) s)) =
    (Logger.Level (logger s) <=? level)%Z &&
    passes (Logger.Filter (logger s)) (fresh level format a s) &&
    match handler_of k (logger s) with
    | Some h => (h_Level h <=? level)%Z && passes (h_Filter h) (fresh level format a s)
    | None => false
    end.
Proof.
  repeat split; try apply level_ge_true.
  rewrite served_gates. unfold gates, eligible. by rewrite handler_of_fresh.
Qed.

End Dispatch.

(** ** Beyond one call *)

Section Sequences.
Context `{Collaborators}.

Implicit Types (level : MessageLevel) (format : string) (a : list Value).
Implicit Types (s : State) (l : Logger.t) (k : HandlerKind) (h : Handler).
Implicit Types (calls : list (MessageLevel * string * list Value)).

Lemma log_logger level format a s :
  logger (exec (log level format a) s) =
  if level_ge level (Logger.Level (logger s)) then fresh level format a s else logger s.
Proof.
  rewrite exec_log, level_ge_ltb. unfold dispatch.
  destruct (level <? _)%Z; simpl; [reflexivity|].
  destruct (passes _ _); simpl; [|reflexivity].
  by destruct (handle_all _ _ _ _).
Qed.

Lemma log_Level level format a s :
  Logger.Level (logger (exec (log level format a) s)) = Logger.Level (logger s).
Proof. rewrite log_logger. by destruct (level_ge _ _). Qed.

Lemma log_trace level format a s :
  trace (exec (log level format a) s) =
  (trace s ++ added s (exec (log level format a) s))%list.
Proof.
  rewrite log_added. rewrite exec_log, level_ge_ltb. unfold dispatch.
  destruct (level <? _)%Z; simpl; [by rewrite app_nil_r|].
  destruct (passes _ _); simpl; [|reflexivity].
  rewrite handle_all_attached. reflexivity.
Qed.

Lemma run_cons level format a calls s :
  run ((level, format, a) :: calls) s = run calls (exec (log level format a) s).
Proof. reflexivity. Qed.

Lemma run_Level calls s :
  Logger.Level (logger (run calls s)) = Logger.Level (logger s).
Proof.
  revert s. induction calls as [|[[level format] a] calls IH]; intros s; [reflexivity|].
  by rewrite run_cons, IH, log_Level.
Qed.

(** However many calls are made, the configuration of the Logger stays what
    it was: the minimum level, the filter and the two handlers. *)
Theorem run_keeps_configuration calls s :
  Logger.Level (logger (run calls s)) = Logger.Level (logger s) /\
  Logger.Filter (logger (run calls s)) = Logger.Filter (logger s) /\
  Logger.StreamHandler (logger (run calls s)) = Logger.StreamHandler (logger s) /\
  Logger.FileHandler (logger (run calls s)) = Logger.FileHandler (logger s).
Proof.
  revert s. induction calls as [|[[level format] a] calls IH]; intros s; [auto|].
  rewrite run_cons. destruct (IH (exec (log level format a) s)) as (-> & -> & -> & ->).
  rewrite log_logger. by destruct (level_ge _ _).
Qed.

Lemma added_counts level format a s :
  length (List.filter is_record (added s (exec (log level format a) s))) =
    (if level_ge level (Logger.Level (logger s)) then 1 else 0)%nat /\
  (length (List.filter is_any_write (added s (exec (log level format a) s))) <=
    if level_ge level (Logger.Level (logger s)) then 2 else 0)%nat.
Proof.
  rewrite log_added. destruct (level_ge _ _); simpl; [|auto].
  destruct (passes _ _); simpl; [|auto].
  rewrite !turn_shape. set (l' := fresh level format a s).
  destruct (eligible level l' Stream), (eligible level l' File);
    destruct (handler_of Stream l'), (handler_of File l'); simpl; lia.
Qed.

(** A sequence of calls only adds to the trace; it builds exactly one record
    for each call at or above the Logger's level and none for the others,
    and it makes at most two writes for each such call. *)
Theorem run_builds_one_record_per_admitted_call calls s :
  exists evs,
    trace (run calls s) = (trace s ++ evs)%list /\
    length (List.filter is_record evs) =
      length (admitted (Logger.Level (logger s)) calls) /\
    (length (List.filter is_any_write evs) <=
      2 * length (admitted (Logger.Level (logger s)) calls))%nat.
Proof.
  revert s. induction calls as [|[[level format] a] calls IH]; intros s.
  - exists []. simpl. by rewrite app_nil_r.
  - rewrite run_cons.
    destruct (IH (exec (log level format a) s)) as (evs & Ht & Hr & Hw).
    rewrite log_Level in Hr, Hw.
    destruct (added_counts level format a s) as [Hr1 Hw1].
    exists (added s (exec (log level format a) s) ++ evs)%list.
    rewrite Ht, log_trace, <- app_assoc. split; [reflexivity|].
    rewrite !List.filter_app, !length_app. unfold admitted in *. simpl.
    destruct (level_ge level (Logger.Level (logger s))); simpl; lia.
Qed.

(** The Record field after a sequence of calls followed by one more call: the
    record of the last call when that call is at or above the Logger's level,
    built in the world the earlier calls left; otherwise what the earlier
    calls left there, a call below the level clearing nothing. *)
Theorem last_admitted_call_sets_Record calls level format a s :
  Logger.Record_ (logger (run (calls ++ [(level, format, a)]) s)) =
  if level_ge level (Logger.Level (logger s))
  then Some (GetMessageRecord level format a (world (run calls s)))
  else Logger.Record_ (logger (run calls s)).
Proof.
  unfold run at 1. rewrite foldl_app. simpl. fold (run calls s).
  rewrite log_logger, run_Level.
  by destruct (level_ge _ _).
Qed.

(** When neither handler has its four gates open (none attached, a level
    too high, a filter that denies), a call writes nothing and leaves the
    world as it was; at or above the Logger's level it still builds the
    record and stores it. *)
Theorem closed_gates_no_output level format a s :
  gates level (fresh level format a s) Stream = false ->
  gates level (fresh level format a s) File = false ->
  exec (log level format a) s =
  if level_ge level (Logger.Level (logger s))
  then mkState _ (fresh level format a s) (world s) (trace s ++ [EvRecord level format a])
  else s.
Proof.
  unfold gates. simpl. intros Hs Hf.
  rewrite exec_log, level_ge_ltb. unfold dispatch.
  rewrite level_ge_ltb in Hs, Hf.
  destruct (level <? Logger.Level (logger s))%Z; simpl in *; [reflexivity|].
  destruct (passes _ _); simpl in *; [|reflexivity].
  rewrite handle_all_attached, !turn_shape, Hs, Hf. reflexivity.
Qed.

(** Without filters, severity is monotone: a handler that is served at one
    level is served at every higher level. *)
Theorem served_monotone_without_filters level level' format format' a a' s k h :
  Logger.Filter (logger s) = None ->
  handler_of k (logger s) = Some h ->
  h_Filter h = None ->
  (level <= level')%Z ->
  served k (added s (exec (log level format a) s)) = true ->
  served k (added s (exec (log level' format' a') s)) = true.
Proof.
  intros Hf Hh Hhf Hle. rewrite !served_gates. unfold gates, eligible.
  rewrite !handler_of_fresh, Hh. simpl. rewrite Hf, Hhf. simpl.
  rewrite !andb_true_r, !andb_true_iff, !level_ge_true. lia.
Qed.

(** A Logger whose level is above CRITICAL is silent for the whole public
    interface: none of the five methods builds a record, calls a handler or
    changes anything. *)
Theorem level_above_CRITICAL_silences format a s :
  (CRITICAL < Logger.Level (logger s))%Z ->
  Forall (fun lm => exec (lm.2 format a) s = s) public_methods.
Proof.
  intros Hc. unfold CRITICAL, level_const in Hc. unfold public_methods.
  repeat (apply List.Forall_cons); [..|apply List.Forall_nil]; simpl;
    unfold Logger_DEBUG, Logger_INFO, Logger_WARNING, Logger_ERROR, Logger_CRITICAL;
    rewrite exec_log; unfold dispatch;
    match goal with |- context [(?x <? ?y)%Z] =>
      destruct (Z.ltb_spec x y) as [_|Hge]; [reflexivity|] end;
    unfold DEBUG, INFO, WARNING, ERROR, CRITICAL, level_const in Hge; lia.
Qed.

(** The default Logger lets every public method through: each builds its
    record, renders it with the default formatter and makes one write, to
    the standard output, and no other write. *)
Theorem default_logger_writes_every_level format a (w : World) (tr : list Event) :
  Forall (fun lm =>
    let s := mkState _ GetDefaultLogger w tr in
    let fm := {| Format := default_Format; TimeFormat := "2006-01-02 15:04:05" |} in
    let msg := execute_template fm (fresh lm.1 format a s) in
    exec (lm.2 format a) s =
    mkState _ (fresh lm.1 format a s) (writer_Write os_Stdout msg w).1
      (tr ++ [EvRecord lm.1 format a; EvFormat Stream (Some fm);
              EvWrite Stream msg (writer_Write os_Stdout msg w).2]))
    public_methods.
Proof.
  unfold public_methods.
  repeat (apply List.Forall_cons); [..|apply List.Forall_nil]; simpl;
    unfold Logger_DEBUG, Logger_INFO, Logger_WARNING, Logger_ERROR, Logger_CRITICAL;
    rewrite exec_log; unfold dispatch; simpl;
    rewrite handle_all_attached, !turn_shape; unfold eligible; simpl;
    reflexivity.
Qed.

(** Whatever a public method records carries one of the five levels, for
    which the colour table has a sequence and the name table a name: no
    call through the public interface records a level outside the tables. *)
Theorem public_methods_record_known_levels format a s :
  Forall (fun lm =>
    forall level' format' a',
      In (EvRecord level' format' a') (added s (exec (lm.2 format a) s)) ->
      level' = lm.1 /\
      slice_index LevelColorFlag level' = Some (colour_at level') /\
      colour_at level' <> "" /\ map_index LevelString level' <> "")
    public_methods.
Proof.
  assert (Hone : forall level level' format' a',
    In (EvRecord level' format' a') (added s (exec (log level format a) s)) ->
    level' = level).
  { intros level level' format' a'. rewrite log_added.
    destruct (level_ge _ _); [|intros []]. simpl.
    intros [Heq|Hin]; [congruence|]. exfalso.
    destruct (passes _ _); [|destruct Hin].
    rewrite !turn_shape in Hin. set (l' := fresh level format a s) in *.
    destruct (eligible level l' Stream), (eligible level l' File);
      destruct (handler_of Stream l'), (handler_of File l'); simpl in Hin;
      intuition discriminate. }
  unfold public_methods.
  repeat (apply List.Forall_cons); [..|apply List.Forall_nil]; simpl;
    intros level' format' a' Hin;
    apply Hone in Hin; subst level'; repeat split; discriminate.
Qed.

Lemma turn_attempts level l k (w w' : World) :
  map attempt (turn level l k w).1 = map attempt (turn level l k w').1.
Proof.
  rewrite !turn_shape. destruct (eligible level l k); [|reflexivity].
  by destruct (handler_of k l).
Qed.

(** What the destinations answer never steers the dispatch: from the same
    logger and the same record, two worlds see the same renderings and the
    same writes attempted, in the same order, whatever each write reports,
    and the Logger ends up the same. *)
Theorem write_results_do_not_steer level format a s1 s2 :
  logger s1 = logger s2 ->
  GetMessageRecord level format a (world s1) = GetMessageRecord level format a (world s2) ->
  map attempt (added s1 (exec (log level format a) s1)) =
  map attempt (added s2 (exec (log level format a) s2)) /\
  logger (exec (log level format a) s1) = logger (exec (log level format a) s2).
Proof.
  intros Hl Hr.
  assert (Hf : fresh level format a s1 = fresh level format a s2)
    by (unfold fresh; by rewrite Hl, Hr).
  rewrite !log_logger, !log_added, Hf, Hl. split; [|reflexivity].
  destruct (level_ge _ _); [|reflexivity]. simpl. f_equal.
  destruct (passes _ _); [|reflexivity].
  rewrite !map_app. f_equal; apply turn_attempts.
Qed.

End Sequences.

(** ** More on the severity tables *)

Lemma sprintf_d_sscanf_d (n : Z) : sscanf_d (sprintf_d n) = Some n.
Proof.
  unfold sscanf_d, sprintf_d. rewrite NilZero.isi.
  - simpl. by rewrite DecimalZ.of_to.
  - destruct n; simpl; try discriminate.
    intros [= Hp]. by apply DecimalPos.Unsigned.to_uint_nonnil in Hp.
  - destruct n; simpl; try discriminate.
    intros [= Hp]. by apply DecimalPos.Unsigned.to_uint_nonnil in Hp.
Qed.

Lemma sprintf_d_inj (n n' : Z) : sprintf_d n = sprintf_d n' -> n = n'.
Proof.
  intros Heq. apply (f_equal sscanf_d) in Heq.
  rewrite !sprintf_d_sscanf_d in Heq. congruence.
Qed.

Lemma lacks_uint (x : ascii) (d : Decimal.uint) :
  x = ";"%char \/ x = "m"%char -> lacks x (NilEmpty.string_of_uint d).
Proof.
  intros Hx. induction d; simpl; try split; auto;
    destruct Hx as [-> | ->]; discriminate.
Qed.

Lemma lacks_sprintf_d (x : ascii) (n : Z) :
  x = ";"%char \/ x = "m"%char -> lacks x (sprintf_d n).
Proof.
  intros Hx. unfold sprintf_d.
  assert (Hu : forall d, lacks x (NilZero.string_of_uint d)).
  { intros d. destruct d; try apply (lacks_uint x _ Hx).
    simpl. split; [destruct Hx as [-> | ->]; discriminate | exact I]. }
  destruct (Z.to_int n) as [d|d]; simpl; [apply Hu|].
  split; [destruct Hx as [-> | ->]; discriminate | apply Hu].
Qed.

(** Two strings cut at the first occurrence of a separator. *)
Lemma split_at_separator (x : ascii) (t t' r r' : string) :
  lacks x t -> lacks x t' ->
  t +:+ String x r = t' +:+ String x r' -> t = t' /\ r = r'.
Proof.
  revert t'. induction t as [|c t IH]; intros [|c' t'] Ht Ht' Heq;
    simpl in Ht, Ht'; cbn in Heq.
  - by injection Heq.
  - injection Heq as Hc _. destruct Ht' as [Hne _]. congruence.
  - injection Heq as Hc _. destruct Ht as [Hne _]. congruence.
  - injection Heq as Hc Heq. destruct Ht as [_ Ht], Ht' as [_ Ht'].
    destruct (IH t' Ht Ht' Heq) as [-> ->]. by subst.
Qed.

(** The start sequence tells the colour and the style: two calls of
    [levelColorSeq] give the same sequence only for the same colour and the
    same style. *)
Theorem levelColorSeq_inj (color color' style style' : Z) :
  levelColorSeq color style = levelColorSeq color' style' <->
  color = color' /\ style = style'.
Proof.
  split; [|by intros [-> ->]].
  unfold levelColorSeq. intros Heq.
  apply (inj (String.app ESC)) in Heq. apply (inj (String.app "[")) in Heq.
  change (sprintf_d style +:+ String ";" (sprintf_d color +:+ String "m" "") =
          sprintf_d style' +:+ String ";" (sprintf_d color' +:+ String "m" "")) in Heq.
  apply split_at_separator in Heq as [Hs Hc]; try (apply lacks_sprintf_d; auto).
  apply split_at_separator in Hc as [Hc _]; try (apply lacks_sprintf_d; auto).
  split; by apply sprintf_d_inj.
Qed.

(** The two tables know the same levels: a rank has a name in [LevelString]
    exactly when it has a colour sequence in [LevelColorFlag]. *)
Theorem named_iff_coloured (l : MessageLevel) :
  map_index LevelString l <> "" <->
  exists c, slice_index LevelColorFlag l = Some c /\ c <> "".
Proof.
  rewrite LevelString_entries. unfold name_at, slice_index.
  destruct (decide (l = DEBUG)) as [->|H1];
    [split; [intros _; eexists; split; [reflexivity|discriminate] | discriminate]|].
  destruct (decide (l = INFO)) as [->|H2];
    [split; [intros _; eexists; split; [reflexivity|discriminate] | discriminate]|].
  destruct (decide (l = WARNING)) as [->|H3];
    [split; [intros _; eexists; split; [reflexivity|discriminate] | discriminate]|].
  destruct (decide (l = ERROR)) as [->|H4];
    [split; [intros _; eexists; split; [reflexivity|discriminate] | discriminate]|].
  destruct (decide (l = CRITICAL)) as [->|H5];
    [split; [intros _; eexists; split; [reflexivity|discriminate] | discriminate]|].
  split; [congruence|]. intros (c & Hc & Hne). exfalso.
  destruct (decide (0 <= l)%Z) as [Hl|Hl]; [|discriminate].
  destruct (decide (Z.to_nat l < 51)%nat) as [Hlt|Hge].
  - rewrite LevelColorFlag_entries in Hc by exact Hlt.
    rewrite Z2Nat.id in Hc by exact Hl. unfold colour_at in Hc.
    repeat (destruct (decide _) in Hc; [congruence|]). congruence.
  - rewrite lookup_ge_None_2 in Hc; [discriminate|].
    rewrite LevelColorFlag_length. lia.
Qed.

(** The level column of the default template is 8 characters wide for every
    rank: the verb [%8s] pads each name of [LevelString], and the empty name
    of a rank that has none, to exactly 8 characters. *)
Theorem level_column_is_8_wide (l : MessageLevel) :
  exists field,
    In (NAction [CField "LevelString"; CPrintf "%8s"])
       (default [] (parse_template default_Format)) /\
    sprintf_s "%8s" (map_index LevelString l) = Some field /\
    String.length field = 8%nat.
Proof.
  exists (pad_left 8 (map_index LevelString l)).
  split; [vm_compute; tauto|]. split; [reflexivity|].
  rewrite LevelString_entries. unfold name_at.
  repeat (destruct (decide _); [reflexivity|]). reflexivity.
Qed.

(** ** The properties at work in the small world *)

#[local] Existing Instance Demo.externals.
#[local] Existing Instance Demo.collaborators.

(** Logger at INFO, Stream handler at DEBUG, File handler at WARNING: a
    message at INFO reaches the Stream handler only, a message at ERROR
    reaches both, a message at DEBUG reaches none. *)
Example info_reaches_stream_only :
  trace (exec (log INFO "started" []) (Demo.start Demo.two_sinks Demo.all_open)) =
  [EvRecord INFO "started" []; EvFormat Stream (Some Demo.plain);
   EvWrite Stream "started" None].
Proof. vm_compute. reflexivity. Qed.

Example error_reaches_both :
  Demo.written (world (exec (Logger_ERROR "disk full" [])
                         (Demo.start Demo.two_sinks Demo.all_open))) =
  [(1%nat, "disk full"); (3%nat, "disk full")].
Proof. vm_compute. reflexivity. Qed.

Example debug_reaches_none :
  exec (Logger_DEBUG "tick" []) (Demo.start Demo.two_sinks Demo.all_open) =
  Demo.start Demo.two_sinks Demo.all_open.
Proof. vm_compute. reflexivity. Qed.

Lemma log_serves_iff_four_gates_witness :
  let s := Demo.start Demo.two_sinks Demo.all_open in
  let h := mkHandler Demo.externals WARNING (Some Demo.HasRecord) (Some Demo.plain) 3%nat in
  let s' := exec (log ERROR "disk full" []) s in
  handler_of File (logger s) = Some h /\
  served File (added s s') = true /\
  List.filter (touches File) (added s s') =
    [EvFormat File (Some Demo.plain); EvWrite File "disk full" None] /\
  Demo.written (world s') = [(1%nat, "disk full"); (3%nat, "disk full")].
Proof.
  intros s h s'. split; [reflexivity|].
  destruct (log_serves_iff_four_gates ERROR "disk full" [] s File h eq_refl)
    as (Hiff & _ & _ & Hown & Hstate).
  split; [|split].
  - apply (proj1 Hiff). repeat split; vm_compute; congruence.
  - subst s'. rewrite Hown. reflexivity.
  - subst s'. rewrite Hstate. reflexivity.
Defined.

Lemma stream_write_failure_isolated_witness :
  let s := Demo.start Demo.two_sinks Demo.console_closed in
  let l' := fresh ERROR "disk full" [] s in
  (gates ERROR l' Stream = true /\ gates ERROR l' File = true) /\
  writer_Write 1%nat "disk full" (world s) =
    (Demo.console_closed, Some "file already closed") /\
  trace (log ERROR "disk full" [] s).2 =
    [EvRecord ERROR "disk full" [];
     EvFormat Stream (Some Demo.plain);
     EvWrite Stream "disk full" (Some "file already closed");
     EvFormat File (Some Demo.plain);
     EvWrite File "disk full" None] /\
  Demo.written (world (log ERROR "disk full" [] s).2) = [(3%nat, "disk full")].
Proof.
  intros s l'. split; [split; reflexivity|]. split; [reflexivity|].
  assert (Hgs : gates ERROR l' Stream = true) by reflexivity.
  assert (Hgf : gates ERROR l' File = true) by reflexivity.
  assert (Hw : StreamMessageHandler_Write Demo.console
                 (GetMessage (StreamMessageHandler.Formatter Demo.console) l') (world s) =
               (Demo.console_closed, Some "file already closed")) by reflexivity.
  destruct (stream_write_failure_isolated ERROR "disk full" [] s
              Demo.console Demo.file3 Demo.console_closed "file already closed"
              eq_refl eq_refl Hgs Hgf Hw) as [Hlog _].
  rewrite Hlog. split; reflexivity.
Defined.

Lemma nil_components_pass_through_witness :
  let s := Demo.start Demo.bare_sinks Demo.all_open in
  let h := mkHandler Demo.externals DEBUG None None 1%nat in
  let evs := added s (exec (log ERROR "disk full" []) s) in
  handler_of Stream (logger s) = Some h /\
  (exists err, In (EvFormat Stream None) evs /\ In (EvWrite Stream "" err) evs) /\
  served File evs = true.
Proof.
  intros s h evs. split; [reflexivity|].
  destruct (nil_components_pass_through ERROR "disk full" [] s Stream h eq_refl)
    as (_ & _ & Hfmt & _).
  assert (Hg : gates ERROR (fresh ERROR "disk full" [] s) Stream = true) by reflexivity.
  destruct (Hfmt eq_refl Hg) as [Hin Hall].
  split; [exact Hin|]. subst evs. rewrite Hall. reflexivity.
Defined.

Lemma handlers_in_fixed_order_witness :
  let s := Demo.start Demo.two_sinks Demo.all_open in
  level_ge ERROR (Logger.Level (logger s)) = true /\
  passes (Logger.Filter (logger s)) (fresh ERROR "disk full" [] s) = true /\
  trace (exec (log ERROR "disk full" []) s) =
    [EvRecord ERROR "disk full" [];
     EvFormat Stream (Some Demo.plain); EvWrite Stream "disk full" None;
     EvFormat File (Some Demo.plain); EvWrite File "disk full" None].
Proof.
  intros s. split; [reflexivity|]. split; [reflexivity|].
  assert (Hlv : level_ge ERROR (Logger.Level (logger s)) = true) by reflexivity.
  assert (Hp : passes (Logger.Filter (logger s)) (fresh ERROR "disk full" [] s) = true)
    by reflexivity.
  destruct (handlers_in_fixed_order ERROR "disk full" [] s Hlv Hp) as [Hrun _].
  rewrite Hrun. reflexivity.
Defined.

Lemma closed_gates_no_output_witness :
  let l := Logger.mk Demo.externals INFO (Some Demo.Deny) None
             (Some Demo.console) (Some Demo.file3) in
  let s := Demo.start l Demo.all_open in
  (gates ERROR (fresh ERROR "disk full" [] s) Stream = false /\
   gates ERROR (fresh ERROR "disk full" [] s) File = false) /\
  Demo.written (world (exec (log ERROR "disk full" []) s)) = [] /\
  Logger.Record_ (logger (exec (log ERROR "disk full" []) s)) =
    Some (ERROR, "disk full", 7%nat).
Proof.
  intros l s.
  assert (Hs : gates ERROR (fresh ERROR "disk full" [] s) Stream = false) by reflexivity.
  assert (Hf : gates ERROR (fresh ERROR "disk full" [] s) File = false) by reflexivity.
  split; [split; assumption|].
  rewrite (closed_gates_no_output ERROR "disk full" [] s Hs Hf).
  split; reflexivity.
Defined.

Lemma served_monotone_without_filters_witness :
  let s := Demo.start Demo.bare_sinks Demo.all_open in
  let h := mkHandler Demo.externals DEBUG None None 1%nat in
  (Logger.Filter (logger s) = None /\ handler_of Stream (logger s) = Some h /\
   h_Filter h = None /\ (INFO <= ERROR)%Z /\
   served Stream (added s (exec (log INFO "started" []) s)) = true) /\
  served Stream (added s (exec (log ERROR "disk full" []) s)) = true.
Proof.
  intros s h.
  assert (Hle : (INFO <= ERROR)%Z) by (vm_compute; discriminate).
  assert (Hs : served Stream (added s (exec (log INFO "started" []) s)) = true)
    by reflexivity.
  split; [repeat split; try assumption|].
  exact (served_monotone_without_filters INFO ERROR "started" "disk full" [] [] s
           Stream h eq_refl eq_refl eq_refl Hle Hs).
Defined.

Lemma level_above_CRITICAL_silences_witness :
  let l := Logger.mk Demo.externals 60 None None (Some Demo.console) (Some Demo.file3) in
  let s := Demo.start l Demo.all_open in
  (CRITICAL < Logger.Level (logger s))%Z /\
  exec (Logger_CRITICAL "meltdown" []) s = s.
Proof.
  intros l s.
  assert (Hc : (CRITICAL < Logger.Level (logger s))%Z) by (vm_compute; reflexivity).
  split; [exact Hc|].
  pose proof (level_above_CRITICAL_silences "meltdown" [] s Hc) as Hall.
  unfold public_methods in Hall.
  do 4 (apply List.Forall_inv_tail in Hall). apply List.Forall_inv in Hall.
  exact Hall.
Defined.

Lemma write_results_do_not_steer_witness :
  let s1 := Demo.start Demo.two_sinks Demo.all_open in
  let s2 := Demo.start Demo.two_sinks Demo.console_closed in
  (logger s1 = logger s2 /\
   GetMessageRecord ERROR "disk full" [] (world s1) =
   GetMessageRecord ERROR "disk full" [] (world s2)) /\
  map attempt (added s2 (exec (log ERROR "disk full" []) s2)) =
  [EvRecord ERROR "disk full" [];
   EvFormat Stream (Some Demo.plain); EvWrite Stream "disk full" None;
   EvFormat File (Some Demo.plain); EvWrite File "disk full" None].
Proof.
  intros s1 s2.
  assert (Hl : logger s1 = logger s2) by reflexivity.
  assert (Hr : GetMessageRecord ERROR "disk full" [] (world s1) =
               GetMessageRecord ERROR "disk full" [] (world s2)) by reflexivity.
  split; [split; assumption|].
  destruct (write_results_do_not_steer ERROR "disk full" [] s1 s2 Hl Hr) as [Hsame _].
  rewrite <- Hsame. reflexivity.
Defined.
